(** * The DELETE query writer of cirql (src/lib/writer/delete.ts)

    A shallow embedding of [DeleteQueryWriter], of its three factories
    [del], [delRecord] and [delRelation], and of the rendering method
    [toQuery], followed by the properties of the writer. *)

From Stdlib Require Import String Ascii List Bool ZArith DecimalString.
Import ListNotations.
Open Scope string_scope.

Set Implicit Arguments.

(** ** Thrown values

    The file throws two classes of exception: the library's own
    [CirqlWriterError] (from ../errors) and the built-in [Error]. *)

Inductive JsError : Type :=
| Error (message : string)
| CirqlWriterError (message : string).

(** A call either returns a value or throws. *)
Inductive completion (A : Type) : Type :=
| Return (a : A)
| Throw (e : JsError).

Arguments Return {A} a.
Arguments Throw {A} e.

Definition bind {A B : Type} (c : completion A) (k : A -> completion B)
  : completion B :=
  match c with
  | Return a => k a
  | Throw e => Throw e
  end.

Notation "x <- c ;; k" := (bind c (fun x => k))
  (at level 61, c at next level, right associativity).

(** [e instanceof CirqlWriterError] *)
Definition isCirqlWriterError (e : JsError) : bool :=
  match e with
  | CirqlWriterError _ => true
  | Error _ => false
  end.

(** ** JavaScript primitives used by the writer *)

(** Truthiness of a string: only the empty string is falsy. *)
Definition truthy (s : string) : bool :=
  match s with
  | EmptyString => false
  | String _ _ => true
  end.

(** [Array.prototype.join] on an array of strings. *)
Definition join (sep : string) (xs : list string) : string :=
  String.concat sep xs.

(** [String.prototype.toUpperCase], on the ASCII letters (the return
    modes are plain ASCII words). *)
Definition upper (c : ascii) : ascii :=
  let n := nat_of_ascii c in
  if andb (Nat.leb 97 n) (Nat.leb n 122) then ascii_of_nat (n - 32) else c.

Fixpoint toUpperCase (s : string) : string :=
  match s with
  | EmptyString => EmptyString
  | String c s' => String (upper c) (toUpperCase s')
  end.

(** JavaScript numbers (IEEE doubles), as far as the writer looks at
    them: [timeout] is tested for truthiness ([if (timeout)]) and spliced
    into a template literal ([`${timeout}`]).  [ToBoolean] is false on
    [0], [-0] and [NaN] and true on every other number. *)
Class JsNumber : Type := {
  number : Type;
  zero : number;
  ToBoolean : number -> bool;
  ToString : number -> string;
  ToBoolean_zero : ToBoolean zero = false
}.

(** The zod library: schemas are opaque to the writer. *)
Class Zod : Type := {
  ZodTypeAny : Type;
  ZodRawShape : Type;
  z_object : ZodRawShape -> ZodTypeAny;
  z_any : ZodTypeAny
}.

(** Modelled from the spec: the type [Quantity] is declared in ./types;
    the spec lists the cardinalities one-expected, zero-or-one and many,
    and the factories use the literals ['maybe'] and ['many']. *)
Inductive Quantity : Type := one | maybe | many.

(** The types the writer imports from ./types and ../types.  A
    [ReturnMode] is a union of string literals; [ReturnMode_literal] is
    the string a mode is at run time: never empty, never ['fields']
    (which the state adds to the union by itself), and ['before'] is one
    of the modes.  A [RecordRelation] carries the [edge] it names. *)
Class WriterTypes : Type := {
  ReturnMode : Type;
  ReturnMode_literal : ReturnMode -> string;
  ReturnMode_literal_truthy :
    forall m, truthy (ReturnMode_literal m) = true;
  ReturnMode_literal_not_fields :
    forall m, String.eqb (ReturnMode_literal m) "fields" = false;
  before : ReturnMode;
  ReturnMode_literal_before : ReturnMode_literal before = "before";
  SurrealValue : Type;
  WhereValue : Type;
  RecordRelation : Type;
  edge : RecordRelation -> string
}.

(** A [Where] object: its keys, in insertion order, with their values. *)
Definition Where `{WriterTypes} : Type := list (string * WhereValue).

(** The functions imported from ./parser, ../helpers and
    ../sql/operators, by their signatures. *)
Class Collaborators `{WriterTypes} : Type := {
  parseWhereClause : Where -> string;
  Array_isArray : SurrealValue -> bool;
  useSurrealValueUnsafe : SurrealValue -> string;
  assertRecordLink : string -> completion string;
  thing : string -> string -> string;
  getRelationFrom : RecordRelation -> SurrealValue;
  getRelationTo : RecordRelation -> SurrealValue;
  eq : SurrealValue -> WhereValue
}.

(** Modelled from the spec: [isListLike] is a helper of ../helpers; by the
    spec the factory [del] fails if any target argument is itself a
    sequence-like value, so [isListLike(...targets)] holds when some
    argument is an array. *)
Definition isListLike `{Collaborators} (value : list SurrealValue) : bool :=
  existsb Array_isArray value.

(** ** The writer state *)

Module State.
Section State.
Context `{JsNumber} `{Zod} `{WriterTypes}.

(** [ReturnMode | 'fields'] *)
Inductive ReturnSetting : Type :=
| mode (m : ReturnMode)
| fields.

(** The string a return setting is at run time. *)
Definition literal (r : ReturnSetting) : string :=
  match r with
  | mode m => ReturnMode_literal m
  | fields => "fields"
  end.

(** [interface DeleteQueryState]; [undefined] and [null] are [None]. *)
Record DeleteQueryState : Type := {
  schema : option ZodTypeAny;
  quantity : Quantity;
  targets : string;
  where_ : option string;
  returnMode : option ReturnSetting;
  returnFields : list string;
  timeout : option number;
  parallel : bool;
  unrelate : bool
}.
End State.
End State.

(** ** The class [DeleteQueryWriter]

    A writer holds nothing but its private [#state], so a writer is
    modelled as its state; [new DeleteQueryWriter({...this.#state, f: v})]
    is the record with field [f] overridden. *)

Module DeleteQueryWriter.
Section DeleteQueryWriter.
Context `{JsNumber} `{Zod} `{WriterTypes} `{!Collaborators}.

Definition t : Type := State.DeleteQueryState.

Definition _schema (w : t) : option ZodTypeAny := State.schema w.
Definition _quantity (w : t) : Quantity := State.quantity w.
Definition _state (w : t) : State.DeleteQueryState := w.

Definition with_ (schema : ZodTypeAny) (w : t) : t :=
  {| State.schema := Some schema;
     State.quantity := State.quantity w;
     State.targets := State.targets w;
     State.where_ := State.where_ w;
     State.returnMode := State.returnMode w;
     State.returnFields := State.returnFields w;
     State.timeout := State.timeout w;
     State.parallel := State.parallel w;
     State.unrelate := State.unrelate w |}.

Definition withSchema (schema : ZodRawShape) (w : t) : t :=
  with_ (z_object schema) w.

Definition withAny (w : t) : t :=
  with_ z_any w.

(** The argument of [where]: [string | Where<S>]. *)
Inductive WhereArg : Type :=
| where_string (text : string)
| where_object (clause : Where).

Definition where_ (where' : WhereArg) (w : t) : completion t :=
  if State.unrelate w then
    Throw (CirqlWriterError "Cannot use where clause with delRelation")
  else
    let where' :=
      match where' with
      | where_object clause => parseWhereClause clause
      | where_string text => text
      end in
    Return
      {| State.schema := State.schema w;
         State.quantity := State.quantity w;
         State.targets := State.targets w;
         State.where_ := Some where';
         State.returnMode := State.returnMode w;
         State.returnFields := State.returnFields w;
         State.timeout := State.timeout w;
         State.parallel := State.parallel w;
         State.unrelate := State.unrelate w |}.

Definition return_ (mode : ReturnMode) (w : t) : t :=
  {| State.schema := State.schema w;
     State.quantity := State.quantity w;
     State.targets := State.targets w;
     State.where_ := State.where_ w;
     State.returnMode := Some (State.mode mode);
     State.returnFields := State.returnFields w;
     State.timeout := State.timeout w;
     State.parallel := State.parallel w;
     State.unrelate := State.unrelate w |}.

Definition returnFields (fields : list string) (w : t) : t :=
  {| State.schema := State.schema w;
     State.quantity := State.quantity w;
     State.targets := State.targets w;
     State.where_ := State.where_ w;
     State.returnMode := Some State.fields;
     State.returnFields := fields;
     State.timeout := State.timeout w;
     State.parallel := State.parallel w;
     State.unrelate := State.unrelate w |}.

Definition timeout (timeout : number) (w : t) : t :=
  {| State.schema := State.schema w;
     State.quantity := State.quantity w;
     State.targets := State.targets w;
     State.where_ := State.where_ w;
     State.returnMode := State.returnMode w;
     State.returnFields := State.returnFields w;
     State.timeout := Some timeout;
     State.parallel := State.parallel w;
     State.unrelate := State.unrelate w |}.

Definition parallel (w : t) : t :=
  {| State.schema := State.schema w;
     State.quantity := State.quantity w;
     State.targets := State.targets w;
     State.where_ := State.where_ w;
     State.returnMode := State.returnMode w;
     State.returnFields := State.returnFields w;
     State.timeout := State.timeout w;
     State.parallel := true;
     State.unrelate := State.unrelate w |}.

(** [toQuery]: the guard on [targets], then [builder] grown by one
    [+=] per clause. *)
Definition toQuery (w : t) : completion string :=
  let targets := State.targets w in
  let where' := State.where_ w in
  let returnMode := State.returnMode w in
  let returnFields := State.returnFields w in
  let timeout := State.timeout w in
  let parallel := State.parallel w in
  if negb (truthy targets) then
    Throw (Error "No targets specified")
  else
    let builder := "DELETE " ++ targets in
    let builder :=
      match where' with
      | Some where' =>
          if truthy where' then builder ++ " WHERE " ++ where' else builder
      | None => builder
      end in
    let builder :=
      match returnMode with
      | Some returnMode =>
          if String.eqb (State.literal returnMode) "fields" then
            builder ++ " RETURN " ++ join ", " returnFields
          else if truthy (State.literal returnMode) then
            builder ++ " RETURN " ++ toUpperCase (State.literal returnMode)
          else builder
      | None => builder
      end in
    let builder :=
      match timeout with
      | Some timeout =>
          if ToBoolean timeout
          then builder ++ " TIMEOUT " ++ ToString timeout ++ "s"
          else builder
      | None => builder
      end in
    let builder :=
      if parallel then builder ++ " PARALLEL" else builder in
    Return builder.

End DeleteQueryWriter.
End DeleteQueryWriter.

(** ** The factories *)

Section Factories.
Context `{JsNumber} `{Zod} `{WriterTypes} `{!Collaborators}.

(** [del(...targets)]: the rest parameter is the list of arguments. *)
Definition del (targets : list SurrealValue)
  : completion DeleteQueryWriter.t :=
  if Nat.eqb (List.length targets) 0 then
    Throw (CirqlWriterError "At least one target must be specified")
  else if isListLike targets then
    Throw (CirqlWriterError "Multiple targets must be specified seperately")
  else
    Return
      {| State.schema := None;
         State.quantity := many;
         State.targets := join ", " (map useSurrealValueUnsafe targets);
         State.where_ := None;
         State.returnMode := Some (State.mode before);
         State.returnFields := [];
         State.timeout := None;
         State.parallel := false;
         State.unrelate := false |}.

(** [delRecord(recordOrTable, id?)]: the second argument may be left
    out, and is then [undefined]. *)
Definition delRecord (recordOrTable : string) (id : option string)
  : completion DeleteQueryWriter.t :=
  targets <-
    match id with
    | None => assertRecordLink recordOrTable
    | Some id => Return (thing recordOrTable id)
    end ;;
  Return
    {| State.schema := None;
       State.quantity := maybe;
       State.targets := targets;
       State.where_ := None;
       State.returnMode := Some (State.mode before);
       State.returnFields := [];
       State.timeout := None;
       State.parallel := false;
       State.unrelate := false |}.

Definition delRelation (relation : RecordRelation) : DeleteQueryWriter.t :=
  {| State.schema := None;
     State.quantity := maybe;
     State.targets := edge relation;
     State.where_ :=
       Some (parseWhereClause
               [("in", eq (getRelationFrom relation));
                ("out", eq (getRelationTo relation))]);
     State.returnMode := Some (State.mode before);
     State.returnFields := [];
     State.timeout := None;
     State.parallel := false;
     State.unrelate := true |}.

End Factories.

(** ** Chains of configuration calls

    A caller configures a writer by a chain [w.m1(a1).m2(a2)...]; a
    [Call] is one link of such a chain, and a chain stops at the first
    call that throws. *)

Section Chains.
Context `{JsNumber} `{Zod} `{WriterTypes} `{!Collaborators}.

Inductive Call : Type :=
| call_with (schema : ZodTypeAny)
| call_withSchema (schema : ZodRawShape)
| call_withAny
| call_where (clause : DeleteQueryWriter.WhereArg)
| call_return (mode : ReturnMode)
| call_returnFields (fields : list string)
| call_timeout (timeout : number)
| call_parallel.

Definition invoke (c : Call) (w : DeleteQueryWriter.t)
  : completion DeleteQueryWriter.t :=
  match c with
  | call_with schema => Return (DeleteQueryWriter.with_ schema w)
  | call_withSchema schema => Return (DeleteQueryWriter.withSchema schema w)
  | call_withAny => Return (DeleteQueryWriter.withAny w)
  | call_where clause => DeleteQueryWriter.where_ clause w
  | call_return mode => Return (DeleteQueryWriter.return_ mode w)
  | call_returnFields fields =>
      Return (DeleteQueryWriter.returnFields fields w)
  | call_timeout timeout => Return (DeleteQueryWriter.timeout timeout w)
  | call_parallel => Return (DeleteQueryWriter.parallel w)
  end.

Fixpoint chain (calls : list Call) (w : DeleteQueryWriter.t)
  : completion DeleteQueryWriter.t :=
  match calls with
  | [] => Return w
  | c :: calls => w' <- invoke c w ;; chain calls w'
  end.

(** The calls of the method [where]. *)
Definition is_where_call (c : Call) : bool :=
  match c with
  | call_where _ => true
  | _ => false
  end.

End Chains.

(** ** The clauses of a rendered query

    What each [builder +=] of [toQuery] contributes for a given state:
    the empty string when its [if] is not taken. *)

Section Clauses.
Context `{JsNumber} `{Zod} `{WriterTypes}.

Definition clause_WHERE (w : State.DeleteQueryState) : string :=
  match State.where_ w with
  | Some text => if truthy text then " WHERE " ++ text else ""
  | None => ""
  end.

Definition clause_RETURN (w : State.DeleteQueryState) : string :=
  match State.returnMode w with
  | Some State.fields => " RETURN " ++ join ", " (State.returnFields w)
  | Some (State.mode m) => " RETURN " ++ toUpperCase (ReturnMode_literal m)
  | None => ""
  end.

Definition clause_TIMEOUT (w : State.DeleteQueryState) : string :=
  match State.timeout w with
  | Some n => if ToBoolean n then " TIMEOUT " ++ ToString n ++ "s" else ""
  | None => ""
  end.

Definition clause_PARALLEL (w : State.DeleteQueryState) : string :=
  if State.parallel w then " PARALLEL" else "".

(** ** Comparing two states field by field *)

Inductive Field : Type :=
| f_schema | f_quantity | f_targets | f_where | f_returnMode
| f_returnFields | f_timeout | f_parallel | f_unrelate.

(** [same_except fs a b]: the states [a] and [b] agree on every field
    that is not listed in [fs]. *)
Definition same_except (fs : list Field) (a b : State.DeleteQueryState)
  : Prop :=
  (~ In f_schema fs -> State.schema a = State.schema b) /\
  (~ In f_quantity fs -> State.quantity a = State.quantity b) /\
  (~ In f_targets fs -> State.targets a = State.targets b) /\
  (~ In f_where fs -> State.where_ a = State.where_ b) /\
  (~ In f_returnMode fs -> State.returnMode a = State.returnMode b) /\
  (~ In f_returnFields fs -> State.returnFields a = State.returnFields b) /\
  (~ In f_timeout fs -> State.timeout a = State.timeout b) /\
  (~ In f_parallel fs -> State.parallel a = State.parallel b) /\
  (~ In f_unrelate fs -> State.unrelate a = State.unrelate b).

(** [b] is [a] with at most one field replaced. *)
Definition one_field_replaced (a b : State.DeleteQueryState) : Prop :=
  exists f, same_except [f] a b.

End Clauses.

(** Settles [same_except] between a state and a copy of it with some
    fields overridden. *)
Ltac frame := unfold same_except; simpl; intuition.

(** ** A sample runtime

    Stand-ins for the code outside delete.ts, to run the writer on
    concrete inputs: numbers are [NaN] or an integer, schemas are bare
    tags, values are texts or arrays of texts, and a where clause is
    rendered key by key. *)

Module Sample.

(** [integer z] is the number [z] when [z] is a safe integer (below 2^53
    in absolute value: these are doubles, and JavaScript prints them in
    plain decimal); beyond that range it stands for [Infinity] or
    [-Infinity]. *)
Inductive num : Type :=
| NaN
| integer (z : Z).

Definition safe_integer (z : Z) : bool :=
  Z.ltb (Z.abs z) 9007199254740992.

Definition num_truthy (n : num) : bool :=
  match n with
  | NaN => false
  | integer z => negb (Z.eqb z 0)
  end.

Definition num_text (n : num) : string :=
  match n with
  | NaN => "NaN"
  | integer z =>
      if safe_integer z then NilZero.string_of_int (Z.to_int z)
      else if Z.ltb z 0 then "-Infinity"
      else "Infinity"
  end.

#[global] Instance js_number : JsNumber := {|
  number := num;
  zero := integer 0;
  ToBoolean := num_truthy;
  ToString := num_text;
  ToBoolean_zero := eq_refl
|}.

Inductive schema_tag : Type :=
| tag_any
| tag_object (keys : list string).

#[global] Instance zod : Zod := {|
  ZodTypeAny := schema_tag;
  ZodRawShape := list string;
  z_object := tag_object;
  z_any := tag_any
|}.

Inductive return_mode : Type :=
| mode_none | mode_before | mode_after | mode_diff.

Definition return_mode_literal (m : return_mode) : string :=
  match m with
  | mode_none => "none"
  | mode_before => "before"
  | mode_after => "after"
  | mode_diff => "diff"
  end.

Inductive value : Type :=
| text (s : string)
| array (items : list string).

Record relation : Type := {
  relation_edge : string;
  relation_from : string;
  relation_to : string
}.

Definition return_mode_literal_truthy (m : return_mode)
  : truthy (return_mode_literal m) = true :=
  match m with
  | mode_none | mode_before | mode_after | mode_diff => eq_refl
  end.

Definition return_mode_literal_not_fields (m : return_mode)
  : String.eqb (return_mode_literal m) "fields" = false :=
  match m with
  | mode_none | mode_before | mode_after | mode_diff => eq_refl
  end.

#[global] Instance writer_types : WriterTypes := {|
  ReturnMode := return_mode;
  ReturnMode_literal := return_mode_literal;
  ReturnMode_literal_truthy := return_mode_literal_truthy;
  ReturnMode_literal_not_fields := return_mode_literal_not_fields;
  before := mode_before;
  ReturnMode_literal_before := eq_refl;
  SurrealValue := value;
  WhereValue := string;
  RecordRelation := relation;
  edge := relation_edge
|}.

Definition value_text (v : value) : string :=
  match v with
  | text s => s
  | array items => "[" ++ join ", " items ++ "]"
  end.

Definition is_array (v : value) : bool :=
  match v with
  | text _ => false
  | array _ => true
  end.

Definition has_colon (s : string) : bool :=
  match index 0 ":" s with
  | Some _ => true
  | None => false
  end.

Definition clause_text (clause : list (string * string)) : string :=
  join " AND " (map (fun kv => fst kv ++ " " ++ snd kv) clause).

#[global] Instance collaborators : Collaborators := {|
  parseWhereClause := clause_text;
  Array_isArray := is_array;
  useSurrealValueUnsafe := value_text;
  assertRecordLink :=
    fun s => if has_colon s then Return s
             else Throw (CirqlWriterError "Value is not a record link");
  thing := fun tb id => tb ++ ":" ++ id;
  getRelationFrom := fun r => text (relation_from r);
  getRelationTo := fun r => text (relation_to r);
  eq := fun v => "= " ++ value_text v
|}.

Definition knows_relation : RecordRelation :=
  {| relation_edge := "knows:1";
     relation_from := "person:1";
     relation_to := "person:2" |}.

(** [delRelation({edge: 'knows:1', from: 'person:1', to: 'person:2'})] *)
Definition knows : DeleteQueryWriter.t := delRelation knows_relation.

(** The state of
    [del('person').where('age > 18').returnFields('name', 'age')
       .timeout(5).parallel()]. *)
Definition person_names : DeleteQueryWriter.t :=
  {| State.schema := None;
     State.quantity := many;
     State.targets := "person";
     State.where_ := Some "age > 18";
     State.returnMode := Some State.fields;
     State.returnFields := ["name"; "age"];
     State.timeout := Some (integer 5);
     State.parallel := true;
     State.unrelate := false |}.

(** [delRelation({edge: '', from: 'person:1', to: 'person:2'})]: a
    relation whose edge is the empty string leaves [targets] empty. *)
Definition no_edge : DeleteQueryWriter.t :=
  delRelation
    {| relation_edge := "";
       relation_from := "person:1";
       relation_to := "person:2" |}.

(** [.return('diff').timeout(9)] *)
Definition diff_in_9s : list Call :=
  [call_return mode_diff; call_timeout (integer 9)].

(** [.parallel().where('age > 18')] *)
Definition parallel_adults : list Call :=
  [call_parallel; call_where (DeleteQueryWriter.where_string "age > 18")].

(** [.return('none')] *)
Definition returning_none : list Call := [call_return mode_none].

(** [.timeout(5).parallel()] *)
Definition parallel_in_5s : list Call :=
  [call_timeout (integer 5); call_parallel].

End Sample.

(** * Properties *)

(** ** Strings *)

Lemma append_assoc (a b c : string) : (a ++ b) ++ c = a ++ (b ++ c).
Proof.
  induction a as [|ch a IH]; simpl.
  - reflexivity.
  - now rewrite IH.
Qed.

Lemma append_empty_r (a : string) : a ++ "" = a.
Proof.
  induction a as [|ch a IH]; simpl.
  - reflexivity.
  - now rewrite IH.
Qed.

Lemma truthy_false_iff (s : string) : truthy s = false <-> s = "".
Proof.
  destruct s; simpl; split; intros E; try reflexivity; discriminate E.
Qed.

Lemma truthy_true_iff (s : string) : truthy s = true <-> s <> "".
Proof.
  destruct s; simpl; split; intros E; try reflexivity;
    try discriminate E; try (intros E'; discriminate E').
  now elim E.
Qed.

Section Rendering.
Context `{JsNumber} `{Zod} `{WriterTypes}.

(** [toQuery] throws on empty targets and otherwise returns the clauses
    in their fixed order. *)
Lemma toQuery_unfold (w : DeleteQueryWriter.t) :
  DeleteQueryWriter.toQuery w =
  if truthy (State.targets w) then
    Return ("DELETE " ++ State.targets w ++ clause_WHERE w ++ clause_RETURN w
              ++ clause_TIMEOUT w ++ clause_PARALLEL w)
  else Throw (Error "No targets specified").
Proof.
  unfold DeleteQueryWriter.toQuery, clause_WHERE, clause_RETURN,
    clause_TIMEOUT, clause_PARALLEL.
  destruct (truthy (State.targets w)); cbn [negb]; [|reflexivity].
  destruct (State.where_ w) as [f|]; [destruct (truthy f)|];
    (destruct (State.returnMode w) as [[m|]|]);
    cbn [State.literal];
    rewrite ?ReturnMode_literal_not_fields, ?ReturnMode_literal_truthy,
      ?String.eqb_refl;
    (destruct (State.timeout w) as [n|]; [destruct (ToBoolean n)|]);
    destruct (State.parallel w);
    cbv zeta; f_equal; rewrite ?append_assoc, ?append_empty_r; reflexivity.
Qed.

Lemma toQuery_truthy (w : DeleteQueryWriter.t) :
  truthy (State.targets w) = true ->
  DeleteQueryWriter.toQuery w =
  Return ("DELETE " ++ State.targets w ++ clause_WHERE w ++ clause_RETURN w
            ++ clause_TIMEOUT w ++ clause_PARALLEL w).
Proof.
  intros E. rewrite toQuery_unfold, E. reflexivity.
Qed.

(** Two states with the same targets and the same clauses render alike. *)
Lemma toQuery_ext (a b : DeleteQueryWriter.t) :
  State.targets a = State.targets b ->
  clause_WHERE a = clause_WHERE b ->
  clause_RETURN a = clause_RETURN b ->
  clause_TIMEOUT a = clause_TIMEOUT b ->
  clause_PARALLEL a = clause_PARALLEL b ->
  DeleteQueryWriter.toQuery a = DeleteQueryWriter.toQuery b.
Proof.
  intros Et Ew Er Eo Ep.
  rewrite !toQuery_unfold, Et, Ew, Er, Eo, Ep. reflexivity.
Qed.

End Rendering.

(** ** Rendering *)

Section RenderingClaims.
Context `{JsNumber} `{Zod} `{WriterTypes}.

(** C1. On a state with targets, [toQuery] returns ['DELETE <targets>']
    followed by the WHERE, RETURN, TIMEOUT and PARALLEL clauses in that
    order.  With a filter, the fields return mode, a truthy timeout and
    parallel all set, the four clauses are all there; a clause is empty
    when its field is unset; the RETURN clause joins the fields with
    [', '] in fields mode and is the upper-cased mode otherwise. *)
Theorem toQuery_clause_order (w : DeleteQueryWriter.t) :
  truthy (State.targets w) = true ->
  DeleteQueryWriter.toQuery w =
    Return ("DELETE " ++ State.targets w ++ clause_WHERE w ++ clause_RETURN w
              ++ clause_TIMEOUT w ++ clause_PARALLEL w)
  /\ (forall filter n,
        State.where_ w = Some filter -> truthy filter = true ->
        State.returnMode w = Some State.fields ->
        State.timeout w = Some n -> ToBoolean n = true ->
        State.parallel w = true ->
        DeleteQueryWriter.toQuery w =
          Return ("DELETE " ++ State.targets w
                    ++ " WHERE " ++ filter
                    ++ " RETURN " ++ join ", " (State.returnFields w)
                    ++ " TIMEOUT " ++ ToString n ++ "s"
                    ++ " PARALLEL"))
  /\ (State.where_ w = None -> clause_WHERE w = "")
  /\ (State.returnMode w = None -> clause_RETURN w = "")
  /\ (State.timeout w = None -> clause_TIMEOUT w = "")
  /\ (State.parallel w = false -> clause_PARALLEL w = "")
  /\ (State.returnMode w = Some State.fields ->
      clause_RETURN w = " RETURN " ++ join ", " (State.returnFields w))
  /\ (forall m, State.returnMode w = Some (State.mode m) ->
      clause_RETURN w = " RETURN " ++ toUpperCase (ReturnMode_literal m)).
Proof.
  intros Et. split; [now apply toQuery_truthy|].
  split.
  { intros filter n Ew Ef Er En Eb Ep.
    rewrite (toQuery_truthy w Et).
    unfold clause_WHERE, clause_RETURN, clause_TIMEOUT, clause_PARALLEL.
    rewrite Ew, Ef, Er, En, Eb, Ep.
    rewrite ?append_assoc. reflexivity. }
  unfold clause_WHERE, clause_RETURN, clause_TIMEOUT, clause_PARALLEL.
  repeat split.
  - now intros ->.
  - now intros ->.
  - now intros ->.
  - now intros ->.
  - now intros ->.
  - now intros m ->.
Qed.

(** C5. A truthy timeout [n] renders as the clause [' TIMEOUT <n>s'],
    between the RETURN and the PARALLEL clause; an unset timeout and a
    timeout of 0 render no TIMEOUT clause, and two states that differ in
    nothing but a timeout of 0 against an unset timeout render alike. *)
Theorem toQuery_timeout :
  (forall (w : DeleteQueryWriter.t) n,
      truthy (State.targets w) = true ->
      State.timeout w = Some n -> ToBoolean n = true ->
      DeleteQueryWriter.toQuery w =
        Return (("DELETE " ++ State.targets w ++ clause_WHERE w
                   ++ clause_RETURN w)
                  ++ (" TIMEOUT " ++ ToString n ++ "s")
                  ++ clause_PARALLEL w))
  /\ (forall w : DeleteQueryWriter.t,
      truthy (State.targets w) = true ->
      State.timeout w = None \/ State.timeout w = Some zero ->
      DeleteQueryWriter.toQuery w =
        Return ("DELETE " ++ State.targets w ++ clause_WHERE w
                  ++ clause_RETURN w ++ clause_PARALLEL w))
  /\ (forall a b : DeleteQueryWriter.t,
      same_except [f_timeout] a b ->
      State.timeout a = Some zero -> State.timeout b = None ->
      DeleteQueryWriter.toQuery a = DeleteQueryWriter.toQuery b)
  /\ (forall w : DeleteQueryWriter.t,
      State.timeout w = None ->
      DeleteQueryWriter.toQuery (DeleteQueryWriter.timeout zero w) =
      DeleteQueryWriter.toQuery w).
Proof.
  repeat split.
  - intros w n Et En Eb. rewrite (toQuery_truthy w Et).
    unfold clause_TIMEOUT. rewrite En, Eb.
    rewrite ?append_assoc. reflexivity.
  - intros w Et [En|En]; rewrite (toQuery_truthy w Et);
      unfold clause_TIMEOUT; rewrite En; [|rewrite ToBoolean_zero];
      reflexivity.
  - intros a b (_ & _ & Et & Ew & Er & Ef & _ & Ep & _) Ea Eb.
    apply toQuery_ext.
    + apply Et. simpl. intuition discriminate.
    + unfold clause_WHERE. rewrite Ew; [reflexivity|].
      simpl. intuition discriminate.
    + unfold clause_RETURN. rewrite Er, Ef; [reflexivity| |];
        simpl; intuition discriminate.
    + unfold clause_TIMEOUT. rewrite Ea, Eb, ToBoolean_zero. reflexivity.
    + unfold clause_PARALLEL. rewrite Ep; [reflexivity|].
      simpl. intuition discriminate.
  - intros w En. apply toQuery_ext; try reflexivity.
    unfold clause_TIMEOUT. simpl. rewrite En, ToBoolean_zero. reflexivity.
Qed.

End RenderingClaims.

Section TargetsGuard.
Context `{JsNumber} `{Zod} `{WriterTypes}.

(** C3, as the code has it.  [toQuery] throws exactly when [targets] is
    the empty string, and what it throws is a plain [Error] with the
    message ['No targets specified'], not a [CirqlWriterError]; on every
    state with targets it returns a string. *)
Theorem toQuery_throws_iff_no_targets (w : DeleteQueryWriter.t) :
  (DeleteQueryWriter.toQuery w = Throw (Error "No targets specified")
   <-> State.targets w = "")
  /\ (forall e, DeleteQueryWriter.toQuery w = Throw e ->
      e = Error "No targets specified" /\ isCirqlWriterError e = false)
  /\ (State.targets w <> "" ->
      exists query, DeleteQueryWriter.toQuery w = Return query).
Proof.
  rewrite toQuery_unfold.
  destruct (truthy (State.targets w)) eqn:Et.
  - apply truthy_true_iff in Et. split; [split|split].
    + intros E. discriminate E.
    + intros E. now elim Et.
    + intros e E. discriminate E.
    + intros _. eexists. reflexivity.
  - apply truthy_false_iff in Et. split; [split|split].
    + trivial.
    + trivial.
    + intros e E. injection E as <-. split; reflexivity.
    + intros E. now elim E.
Qed.

End TargetsGuard.

(** ** Configuration calls *)

Section Configuration.
Context `{JsNumber} `{Zod} `{WriterTypes} `{!Collaborators}.

(** No call changes [unrelate]. *)
Lemma invoke_unrelate (c : Call) (w w' : DeleteQueryWriter.t) :
  invoke c w = Return w' -> State.unrelate w' = State.unrelate w.
Proof.
  destruct c; simpl; try (intros E; injection E as <-; reflexivity).
  unfold DeleteQueryWriter.where_. destruct (State.unrelate w).
  - intros E. discriminate E.
  - intros E. injection E as <-. reflexivity.
Qed.

Lemma chain_unrelate (calls : list Call) :
  forall w w' : DeleteQueryWriter.t,
    chain calls w = Return w' -> State.unrelate w' = State.unrelate w.
Proof.
  induction calls as [|c calls IH]; simpl; intros w w' E.
  - injection E as <-. reflexivity.
  - destruct (invoke c w) as [w1|e] eqn:Ec; simpl in E.
    + rewrite (IH _ _ E). now apply invoke_unrelate with c.
    + discriminate E.
Qed.

(** C2. On a writer made by [delRelation], whatever chain of
    configuration calls it went through, [where] throws the
    [CirqlWriterError] 'Cannot use where clause with delRelation' for
    every argument, and so returns no writer. *)
Theorem where_after_delRelation_throws
    (relation : RecordRelation) (calls : list Call)
    (w : DeleteQueryWriter.t) (clause : DeleteQueryWriter.WhereArg) :
  chain calls (delRelation relation) = Return w ->
  DeleteQueryWriter.where_ clause w =
    Throw (CirqlWriterError "Cannot use where clause with delRelation").
Proof.
  intros E. apply chain_unrelate in E. simpl in E.
  unfold DeleteQueryWriter.where_. rewrite E. reflexivity.
Qed.

(** C4, as the code has it.  [return(m)] sets [returnMode] to [m] and
    leaves every other field as it was: [returnFields] is kept, not
    cleared. *)
Theorem return_sets_returnMode_only
    (w : DeleteQueryWriter.t) (m : ReturnMode) :
  State.returnMode (DeleteQueryWriter.return_ m w) = Some (State.mode m)
  /\ State.returnFields (DeleteQueryWriter.return_ m w) = State.returnFields w
  /\ same_except [f_returnMode] w (DeleteQueryWriter.return_ m w).
Proof.
  split; [reflexivity|]. split; [reflexivity|]. frame.
Qed.

(** C7, as the code has it.  [with], [withSchema], [withAny], [return],
    [timeout] and [parallel] return a state that differs from the input in
    one field at most (named here, with the value it gets), and so does
    [where] whenever the writer is not a relation delete; [returnFields]
    replaces two fields and no other: [returnMode], which becomes
    ['fields'], and [returnFields], which becomes its arguments. *)
Theorem configuration_frame (w : DeleteQueryWriter.t) :
  (forall schema,
      same_except [f_schema] w (DeleteQueryWriter.with_ schema w)
      /\ State.schema (DeleteQueryWriter.with_ schema w) = Some schema)
  /\ (forall shape,
        same_except [f_schema] w (DeleteQueryWriter.withSchema shape w)
        /\ State.schema (DeleteQueryWriter.withSchema shape w)
           = Some (z_object shape))
  /\ (same_except [f_schema] w (DeleteQueryWriter.withAny w)
      /\ State.schema (DeleteQueryWriter.withAny w) = Some z_any)
  /\ (State.unrelate w = false ->
      forall clause, exists w',
        DeleteQueryWriter.where_ clause w = Return w'
        /\ same_except [f_where] w w'
        /\ State.where_ w' =
           Some match clause with
                | DeleteQueryWriter.where_string text => text
                | DeleteQueryWriter.where_object object =>
                    parseWhereClause object
                end)
  /\ (forall m,
        same_except [f_returnMode] w (DeleteQueryWriter.return_ m w)
        /\ State.returnMode (DeleteQueryWriter.return_ m w)
           = Some (State.mode m))
  /\ (forall fields,
        same_except [f_returnMode; f_returnFields] w
          (DeleteQueryWriter.returnFields fields w)
        /\ State.returnMode (DeleteQueryWriter.returnFields fields w)
           = Some State.fields
        /\ State.returnFields (DeleteQueryWriter.returnFields fields w)
           = fields)
  /\ (forall n,
        same_except [f_timeout] w (DeleteQueryWriter.timeout n w)
        /\ State.timeout (DeleteQueryWriter.timeout n w) = Some n)
  /\ (same_except [f_parallel] w (DeleteQueryWriter.parallel w)
      /\ State.parallel (DeleteQueryWriter.parallel w) = true).
Proof.
  split; [intros schema; split; [frame|reflexivity]|].
  split; [intros shape; split; [frame|reflexivity]|].
  split; [split; [frame|reflexivity]|].
  split.
  { intros E clause. unfold DeleteQueryWriter.where_. rewrite E.
    eexists. split; [reflexivity|]. split; [frame|reflexivity]. }
  split; [intros m; split; [frame|reflexivity]|].
  split; [intros fields; split; [frame|split; reflexivity]|].
  split; [intros n; split; [frame|reflexivity]|].
  split; [frame|reflexivity].
Qed.

(** C8. Whatever the order in which [return(m)], [timeout(n)] and
    [parallel()] are called on a writer, the six resulting writers render
    to the same result. *)
Theorem return_timeout_parallel_commute
    (w : DeleteQueryWriter.t) (m : ReturnMode) (n : number) :
  let r := DeleteQueryWriter.return_ m in
  let t := DeleteQueryWriter.timeout n in
  let p := DeleteQueryWriter.parallel in
  let q := DeleteQueryWriter.toQuery in
  q (p (t (r w))) = q (t (p (r w)))
  /\ q (p (t (r w))) = q (p (r (t w)))
  /\ q (p (t (r w))) = q (r (p (t w)))
  /\ q (p (t (r w))) = q (t (r (p w)))
  /\ q (p (t (r w))) = q (r (t (p w))).
Proof.
  cbv zeta. repeat split; reflexivity.
Qed.

(** C9. The schema is inert for rendering: attaching any schema, by
    [with], [withSchema] or [withAny], leaves the result of [toQuery] as
    it was, so two schemas attached to one writer render alike. *)
Theorem schema_inert
    (w : DeleteQueryWriter.t) (A B : ZodTypeAny) (shape : ZodRawShape) :
  DeleteQueryWriter.toQuery (DeleteQueryWriter.with_ A w) =
    DeleteQueryWriter.toQuery (DeleteQueryWriter.with_ B w)
  /\ DeleteQueryWriter.toQuery (DeleteQueryWriter.with_ A w) =
       DeleteQueryWriter.toQuery w
  /\ DeleteQueryWriter.toQuery (DeleteQueryWriter.withSchema shape w) =
       DeleteQueryWriter.toQuery w
  /\ DeleteQueryWriter.toQuery (DeleteQueryWriter.withAny w) =
       DeleteQueryWriter.toQuery w.
Proof.
  repeat split; reflexivity.
Qed.

(** C10. On a writer that is not a relation delete, [where('')] returns
    a writer whose filter is the empty string, and that writer renders no
    WHERE clause: it renders as any state that differs from it only by an
    unset filter. *)
Theorem where_empty_string (w : DeleteQueryWriter.t) :
  State.unrelate w = false ->
  exists w',
    DeleteQueryWriter.where_ (DeleteQueryWriter.where_string "") w = Return w'
    /\ State.where_ w' = Some ""
    /\ clause_WHERE w' = ""
    /\ (truthy (State.targets w') = true ->
        DeleteQueryWriter.toQuery w' =
          Return ("DELETE " ++ State.targets w' ++ clause_RETURN w'
                    ++ clause_TIMEOUT w' ++ clause_PARALLEL w'))
    /\ (forall u : DeleteQueryWriter.t,
          same_except [f_where] u w' -> State.where_ u = None ->
          DeleteQueryWriter.toQuery w' = DeleteQueryWriter.toQuery u).
Proof.
  intros E. unfold DeleteQueryWriter.where_. rewrite E.
  eexists. split; [reflexivity|].
  split; [reflexivity|]. split; [reflexivity|]. split.
  - intros Et. rewrite (toQuery_truthy _ Et). reflexivity.
  - intros u (_ & _ & Et & _ & Er & Ef & En & Ep & _) Eu.
    symmetry. apply toQuery_ext.
    + apply Et. simpl. intuition discriminate.
    + unfold clause_WHERE. rewrite Eu. reflexivity.
    + unfold clause_RETURN. rewrite Er, Ef; [reflexivity| |];
        simpl; intuition discriminate.
    + unfold clause_TIMEOUT. rewrite En; [reflexivity|].
      simpl. intuition discriminate.
    + unfold clause_PARALLEL. rewrite Ep; [reflexivity|].
      simpl. intuition discriminate.
Qed.

(** C6. [del] throws a [CirqlWriterError] when called without
    arguments, and when some argument is an array; otherwise it returns
    the state whose [targets] are the rendered arguments joined by
    [', '], with quantity ['many'] and [unrelate] false. *)
Theorem del_guards :
  del [] = Throw (CirqlWriterError "At least one target must be specified")
  /\ (forall targets,
        existsb Array_isArray targets = true ->
        del targets =
          Throw (CirqlWriterError
                   "Multiple targets must be specified seperately"))
  /\ (forall targets,
        targets <> [] -> existsb Array_isArray targets = false ->
        exists w,
          del targets = Return w
          /\ State.targets w = join ", " (map useSurrealValueUnsafe targets)
          /\ State.quantity w = many
          /\ State.unrelate w = false).
Proof.
  split; [reflexivity|]. split.
  - intros targets E. unfold del, isListLike. rewrite E.
    destruct targets as [|v targets]; [discriminate E|reflexivity].
  - intros targets Hne E. unfold del, isListLike. rewrite E.
    destruct targets as [|v targets]; [now elim Hne|].
    eexists. split; [reflexivity|]. repeat split.
Qed.

End Configuration.

(** ** The writer on the sample runtime *)

(** Scenario 1 of the spec: [del('person', 'dog')]. *)
Example scenario_del_two_targets :
  (w <- del [Sample.text "person"; Sample.text "dog"] ;;
   DeleteQueryWriter.toQuery w)
  = Return "DELETE person, dog RETURN BEFORE".
Proof. reflexivity. Qed.

(** Scenario 3 of the spec: [delRecord('person', '123')]. *)
Example scenario_delRecord :
  (w <- delRecord "person" (Some "123") ;; DeleteQueryWriter.toQuery w)
  = Return "DELETE person:123 RETURN BEFORE".
Proof. reflexivity. Qed.

(** Scenario 4 of the spec: [delRelation(...).timeout(5).parallel()]. *)
Example scenario_delRelation :
  DeleteQueryWriter.toQuery
    (DeleteQueryWriter.parallel
       (DeleteQueryWriter.timeout (Sample.integer 5) Sample.knows))
  = Return ("DELETE knows:1 WHERE in = person:1 AND out = person:2"
              ++ " RETURN BEFORE TIMEOUT 5s PARALLEL").
Proof. reflexivity. Qed.

(** Scenario 5 of the spec: [delRelation(rel).where(...)]. *)
Example scenario_delRelation_where :
  DeleteQueryWriter.where_
    (DeleteQueryWriter.where_object [("name", eq (Sample.text "Alice"))])
    Sample.knows
  = Throw (CirqlWriterError "Cannot use where clause with delRelation").
Proof. reflexivity. Qed.

(** Scenario 6 of the spec: [del()]. *)
Example scenario_del_no_target :
  del ([] : list Sample.value)
  = Throw (CirqlWriterError "At least one target must be specified").
Proof. reflexivity. Qed.

(** The sample state [person_names] is what the chain of calls in its
    description builds. *)
Example person_names_by_calls :
  (w <- del [Sample.text "person"] ;;
   chain [call_where (DeleteQueryWriter.where_string "age > 18");
          call_returnFields ["name"; "age"];
          call_timeout (Sample.integer 5);
          call_parallel] w)
  = Return Sample.person_names.
Proof. reflexivity. Qed.

(** [timeout(NaN)]: a number that is not zero and still falsy renders no
    TIMEOUT clause. *)
Example timeout_NaN :
  DeleteQueryWriter.toQuery (DeleteQueryWriter.timeout Sample.NaN Sample.knows)
  = DeleteQueryWriter.toQuery Sample.knows.
Proof. reflexivity. Qed.

(** C1 at a state with all four clauses. *)
Lemma toQuery_clause_order_witness :
  truthy (State.targets Sample.person_names) = true
  /\ DeleteQueryWriter.toQuery Sample.person_names =
       Return "DELETE person WHERE age > 18 RETURN name, age TIMEOUT 5s PARALLEL".
Proof.
  split; [reflexivity|].
  exact (proj1 (proj2 (toQuery_clause_order Sample.person_names eq_refl))
           "age > 18" (Sample.integer 5)
           eq_refl eq_refl eq_refl eq_refl eq_refl eq_refl).
Defined.

(** C2 after [.timeout(5).parallel()] on a relation delete. *)
Lemma where_after_delRelation_throws_witness :
  chain [call_timeout (Sample.integer 5); call_parallel] Sample.knows
  = Return (DeleteQueryWriter.parallel
              (DeleteQueryWriter.timeout (Sample.integer 5) Sample.knows))
  /\ DeleteQueryWriter.where_
       (DeleteQueryWriter.where_string "age > 18")
       (DeleteQueryWriter.parallel
          (DeleteQueryWriter.timeout (Sample.integer 5) Sample.knows))
     = Throw (CirqlWriterError "Cannot use where clause with delRelation").
Proof.
  split; [reflexivity|].
  exact (where_after_delRelation_throws Sample.knows_relation
           [call_timeout (Sample.integer 5); call_parallel]
           (DeleteQueryWriter.where_string "age > 18") eq_refl).
Defined.

(** C3 as stated fails: a relation delete on an empty edge has no
    targets, and [toQuery] throws a plain [Error] there, which is no
    [CirqlWriterError]. *)
Lemma toQuery_no_targets_plain_Error :
  State.targets Sample.no_edge = ""
  /\ DeleteQueryWriter.toQuery Sample.no_edge
     = Throw (Error "No targets specified")
  /\ ~ (exists m,
         DeleteQueryWriter.toQuery Sample.no_edge
         = Throw (CirqlWriterError m)).
Proof.
  split; [reflexivity|]. split; [reflexivity|].
  intros [m E]. vm_compute in E. discriminate E.
Qed.

(** C3 at a state without targets and at one with targets. *)
Lemma toQuery_throws_iff_no_targets_witness :
  DeleteQueryWriter.toQuery Sample.no_edge
  = Throw (Error "No targets specified")
  /\ State.targets Sample.knows <> ""
  /\ exists query, DeleteQueryWriter.toQuery Sample.knows = Return query.
Proof.
  split.
  - apply (proj1 (toQuery_throws_iff_no_targets Sample.no_edge)).
    reflexivity.
  - assert (E : State.targets Sample.knows <> "")
      by (simpl; intros E; discriminate E).
    split; [exact E|].
    exact (proj2 (proj2 (toQuery_throws_iff_no_targets Sample.knows)) E).
Defined.

(** C4 as stated fails: [return('after')] on a writer that has return
    fields keeps them. *)
Lemma return_keeps_returnFields :
  State.returnFields
    (DeleteQueryWriter.return_ Sample.mode_after Sample.person_names)
  = ["name"; "age"]
  /\ State.returnFields
       (DeleteQueryWriter.return_ Sample.mode_after Sample.person_names)
     <> [].
Proof.
  split; [reflexivity|]. simpl. intros E. discriminate E.
Qed.

(** C5 at a timeout of 5 seconds and at a timeout of 0. *)
Lemma toQuery_timeout_witness :
  DeleteQueryWriter.toQuery Sample.person_names
  = Return "DELETE person WHERE age > 18 RETURN name, age TIMEOUT 5s PARALLEL"
  /\ DeleteQueryWriter.toQuery
       (DeleteQueryWriter.timeout (Sample.integer 0) Sample.knows)
     = Return "DELETE knows:1 WHERE in = person:1 AND out = person:2 RETURN BEFORE"
  /\ DeleteQueryWriter.toQuery
       (DeleteQueryWriter.timeout (Sample.integer 0) Sample.knows)
     = DeleteQueryWriter.toQuery Sample.knows.
Proof.
  split; [|split].
  - exact (proj1 toQuery_timeout Sample.person_names (Sample.integer 5)
             eq_refl eq_refl eq_refl).
  - exact (proj1 (proj2 toQuery_timeout)
             (DeleteQueryWriter.timeout (Sample.integer 0) Sample.knows)
             eq_refl (or_intror eq_refl)).
  - apply (proj1 (proj2 (proj2 toQuery_timeout))).
    + frame.
    + reflexivity.
    + reflexivity.
Defined.

(** C6 on two plain targets and on an array. *)
Lemma del_guards_witness :
  del [Sample.array ["person"; "dog"]]
  = Throw (CirqlWriterError "Multiple targets must be specified seperately")
  /\ exists w,
       del [Sample.text "person"; Sample.text "dog"] = Return w
       /\ State.targets w = "person, dog"
       /\ State.quantity w = many
       /\ State.unrelate w = false.
Proof.
  split.
  - apply (proj1 (proj2 del_guards)). reflexivity.
  - refine (proj2 (proj2 del_guards)
              [Sample.text "person"; Sample.text "dog"] _ eq_refl).
    intros E. discriminate E.
Defined.

(** C7 as stated fails: [returnFields('name')] on a fresh relation delete
    replaces [returnMode] (['before'] becomes ['fields']) and
    [returnFields] (empty becomes [['name']]), so no single field accounts
    for the difference. *)
Lemma returnFields_replaces_two_fields :
  ~ one_field_replaced Sample.knows
      (DeleteQueryWriter.returnFields ["name"] Sample.knows).
Proof.
  intros [f (_ & _ & _ & _ & Hm & Hf & _)].
  destruct f;
    first
      [ assert (E := Hm ltac:(simpl; intuition discriminate));
        vm_compute in E; discriminate E
      | assert (E := Hf ltac:(simpl; intuition discriminate));
        vm_compute in E; discriminate E ].
Qed.

(** C7 for [where] on a writer that is not a relation delete. *)
Lemma configuration_frame_witness :
  State.unrelate Sample.person_names = false
  /\ exists w',
       DeleteQueryWriter.where_
         (DeleteQueryWriter.where_string "age > 21") Sample.person_names
       = Return w'
       /\ same_except [f_where] Sample.person_names w'
       /\ State.where_ w' = Some "age > 21".
Proof.
  split; [reflexivity|].
  exact (proj1 (proj2 (proj2 (proj2
           (configuration_frame Sample.person_names))))
           eq_refl (DeleteQueryWriter.where_string "age > 21")).
Defined.

(** C10 on a writer with a filter: [where('')] drops the WHERE clause. *)
Lemma where_empty_string_witness :
  State.unrelate Sample.person_names = false
  /\ exists w',
       DeleteQueryWriter.where_
         (DeleteQueryWriter.where_string "") Sample.person_names
       = Return w'
       /\ State.where_ w' = Some ""
       /\ DeleteQueryWriter.toQuery w'
          = Return "DELETE person RETURN name, age TIMEOUT 5s PARALLEL".
Proof.
  split; [reflexivity|].
  destruct (where_empty_string Sample.person_names eq_refl)
    as (w' & Ew & Ef & _ & _ & Eu).
  exists w'. split; [exact Ew|]. split; [exact Ef|].
  injection Ew as <-. reflexivity.
Defined.

(** * Further properties of the writer *)

(** ** Strings, continued *)

Lemma truthy_append_r (a b : string) :
  truthy b = true -> truthy (a ++ b) = true.
Proof.
  intros E. destruct a; simpl; [exact E|reflexivity].
Qed.

Lemma prefix_append (a b : string) : prefix a (a ++ b) = true.
Proof.
  induction a as [|ch a IH]; simpl.
  - now destruct b.
  - destruct (ascii_dec ch ch) as [_|N]; [exact IH|now elim N].
Qed.

Lemma prefix_append_assoc (a b c : string) :
  prefix (a ++ b) (a ++ b ++ c) = true.
Proof.
  rewrite <- append_assoc. apply prefix_append.
Qed.

(** Two or more joined strings are never the empty string: the separator
    is there. *)
Lemma join_two_truthy (x y : string) (l : list string) :
  truthy (join ", " (x :: y :: l)) = true.
Proof.
  unfold join. cbn [String.concat]. apply truthy_append_r. reflexivity.
Qed.

(** ** One call, then chains of calls *)

Section Steps.
Context `{JsNumber} `{Zod} `{WriterTypes} `{!Collaborators}.

(** A relation on writers that holds along every call holds along every
    chain, when it is reflexive and transitive. *)
Lemma chain_closure (P : DeleteQueryWriter.t -> DeleteQueryWriter.t -> Prop) :
  (forall w, P w w) ->
  (forall a b c, P a b -> P b c -> P a c) ->
  (forall c w w', invoke c w = Return w' -> P w w') ->
  forall calls w w', chain calls w = Return w' -> P w w'.
Proof.
  intros Hrefl Htrans Hstep calls.
  induction calls as [|c calls IH]; simpl; intros w w' E.
  - injection E as <-. apply Hrefl.
  - destruct (invoke c w) as [w1|e] eqn:Ec; simpl in E.
    + apply Htrans with w1; [now apply Hstep with c|now apply IH].
    + discriminate E.
Qed.

(** What a call returns, case by case: [where] returns only on a writer
    that is no relation delete. *)
Lemma invoke_inv (c : Call) (w w' : DeleteQueryWriter.t) :
  invoke c w = Return w' ->
  match c with
  | call_with schema => w' = DeleteQueryWriter.with_ schema w
  | call_withSchema shape => w' = DeleteQueryWriter.withSchema shape w
  | call_withAny => w' = DeleteQueryWriter.withAny w
  | call_where clause =>
      State.unrelate w = false
      /\ DeleteQueryWriter.where_ clause w = Return w'
  | call_return m => w' = DeleteQueryWriter.return_ m w
  | call_returnFields fs => w' = DeleteQueryWriter.returnFields fs w
  | call_timeout n => w' = DeleteQueryWriter.timeout n w
  | call_parallel => w' = DeleteQueryWriter.parallel w
  end.
Proof.
  destruct c; simpl; try (intros E; injection E as <-; reflexivity).
  intros E. split; [|exact E].
  unfold DeleteQueryWriter.where_ in E.
  destruct (State.unrelate w); [discriminate E|reflexivity].
Qed.

Lemma invoke_fixed (c : Call) (w w' : DeleteQueryWriter.t) :
  invoke c w = Return w' ->
  State.targets w' = State.targets w
  /\ State.quantity w' = State.quantity w
  /\ State.unrelate w' = State.unrelate w.
Proof.
  intros E. apply invoke_inv in E. destruct c;
    try (subst w'; repeat split; reflexivity).
  destruct E as [Eu E]. unfold DeleteQueryWriter.where_ in E.
  rewrite Eu in E. injection E as <-. simpl. rewrite Eu.
  repeat split; reflexivity.
Qed.

Lemma invoke_keeps_set (c : Call) (w w' : DeleteQueryWriter.t) :
  invoke c w = Return w' ->
  (State.schema w <> None -> State.schema w' <> None)
  /\ (State.where_ w <> None -> State.where_ w' <> None)
  /\ (State.returnMode w <> None -> State.returnMode w' <> None)
  /\ (State.timeout w <> None -> State.timeout w' <> None)
  /\ (State.parallel w = true -> State.parallel w' = true).
Proof.
  intros E. apply invoke_inv in E. destruct c;
    try (subst w'; simpl; repeat split; intros; trivial; discriminate).
  destruct E as [Eu E]. unfold DeleteQueryWriter.where_ in E.
  rewrite Eu in E. injection E as <-.
  simpl; repeat split; intros; trivial; discriminate.
Qed.

Lemma invoke_locked (c : Call) (w w' : DeleteQueryWriter.t) :
  State.unrelate w = true ->
  invoke c w = Return w' ->
  State.where_ w' = State.where_ w.
Proof.
  intros Eu E. apply invoke_inv in E. destruct c;
    try (subst w'; reflexivity).
  destruct E as [Eu' _]. rewrite Eu in Eu'. discriminate Eu'.
Qed.

(** On a relation delete, a chain that returns left the filter alone. *)
Lemma chain_locked (calls : list Call) :
  forall w w' : DeleteQueryWriter.t,
    State.unrelate w = true ->
    chain calls w = Return w' ->
    State.where_ w' = State.where_ w
    /\ State.targets w' = State.targets w
    /\ State.unrelate w' = true.
Proof.
  induction calls as [|c calls IH]; simpl; intros w w' Eu E.
  - injection E as <-. repeat split. exact Eu.
  - destruct (invoke c w) as [w1|e] eqn:Ec; simpl in E; [|discriminate E].
    destruct (invoke_fixed _ _ Ec) as (Et & _ & Eu1).
    rewrite Eu in Eu1.
    destruct (IH _ _ Eu1 E) as (Ew' & Et' & Eu').
    assert (Ew : State.where_ w1 = State.where_ w)
      by (eapply invoke_locked; eassumption).
    rewrite Ew', Et', Et, Ew. repeat split. exact Eu'.
Qed.

End Steps.

Section ChainProperties.
Context `{JsNumber} `{Zod} `{WriterTypes} `{!Collaborators}.

(** X1. The factory fixes [targets], [quantity] and [unrelate] for good:
    no chain of configuration calls changes any of the three. *)
Theorem chain_fixed_fields
    (calls : list Call) (w w' : DeleteQueryWriter.t) :
  chain calls w = Return w' ->
  State.targets w' = State.targets w
  /\ State.quantity w' = State.quantity w
  /\ State.unrelate w' = State.unrelate w.
Proof.
  revert calls w w'. apply chain_closure.
  - intros w. repeat split; reflexivity.
  - intros a b c (Et & Eq & Eu) (Et' & Eq' & Eu').
    rewrite Et', Eq', Eu'. repeat split; assumption.
  - intros c w w'. apply invoke_fixed.
Qed.

(** X2. Configuration only ever sets: along a chain of calls a schema, a
    filter, a return mode or a timeout that is set stays set (to some
    value), and [parallel] once true stays true.  The class has no call
    that clears a field. *)
Theorem chain_never_unsets
    (calls : list Call) (w w' : DeleteQueryWriter.t) :
  chain calls w = Return w' ->
  (State.schema w <> None -> State.schema w' <> None)
  /\ (State.where_ w <> None -> State.where_ w' <> None)
  /\ (State.returnMode w <> None -> State.returnMode w' <> None)
  /\ (State.timeout w <> None -> State.timeout w' <> None)
  /\ (State.parallel w = true -> State.parallel w' = true).
Proof.
  revert calls w w'. apply chain_closure.
  - intros w. repeat split; trivial.
  - intros a b c (S1 & W1 & R1 & T1 & P1) (S2 & W2 & R2 & T2 & P2).
    repeat split; auto.
  - intros c w w'. apply invoke_keeps_set.
Qed.

(** X3. A chain of configuration calls throws exactly when the writer is
    a relation delete and the chain has a call of [where]; what it throws
    is then the [CirqlWriterError] of [where].  On every other writer,
    and for every chain without [where], the chain returns a writer. *)
Theorem chain_throws_iff (calls : list Call) (w : DeleteQueryWriter.t) :
  ((exists e, chain calls w = Throw e)
   <-> State.unrelate w = true /\ existsb is_where_call calls = true)
  /\ (forall e, chain calls w = Throw e ->
      e = CirqlWriterError "Cannot use where clause with delRelation").
Proof.
  revert w. induction calls as [|c calls IH]; intros w.
  - simpl. split.
    + split; [intros [e E]; discriminate E|intros [_ E]; discriminate E].
    + intros e E. discriminate E.
  - cbn [chain existsb].
    destruct (invoke c w) as [w1|e1] eqn:Ec.
    + destruct (invoke_fixed _ _ Ec) as (_ & _ & Eu).
      cbn [bind]. destruct (IH w1) as [IHa IHb]. rewrite Eu in IHa.
      split; [|exact IHb].
      rewrite IHa. split.
      * intros [Hu Hw]. split; [exact Hu|]. rewrite Hw.
        now destruct (is_where_call c).
      * intros [Hu Hw]. split; [exact Hu|].
        destruct c; try exact Hw.
        apply invoke_inv in Ec. destruct Ec as [Eu' _].
        rewrite Hu in Eu'. discriminate Eu'.
    + cbn [bind].
      destruct c; simpl in Ec; try discriminate Ec.
      unfold DeleteQueryWriter.where_ in Ec.
      destruct (State.unrelate w) eqn:Eu; [|discriminate Ec].
      injection Ec as <-. split.
      * split; [intros _; split; reflexivity|intros _; eexists; reflexivity].
      * intros e E. injection E as <-. reflexivity.
Qed.

(** X4. The filter of a relation delete is locked: after any chain of
    calls on [delRelation(relation)] the filter is still the one the
    factory compiled from the two ends of the relation, and the target is
    still its edge. *)
Theorem relation_filter_locked
    (relation : RecordRelation) (calls : list Call)
    (w : DeleteQueryWriter.t) :
  chain calls (delRelation relation) = Return w ->
  State.where_ w =
    Some (parseWhereClause
            [("in", eq (getRelationFrom relation));
             ("out", eq (getRelationTo relation))])
  /\ State.targets w = edge relation
  /\ State.unrelate w = true.
Proof.
  intros E. exact (chain_locked calls (delRelation relation) eq_refl E).
Qed.

(** X5. Configuration never decides whether a writer renders: [toQuery]
    returns on the writer a chain ends with exactly when it returns on the
    writer the chain started from, and both queries start with the same
    ['DELETE <targets>']. *)
Theorem chain_renderable
    (calls : list Call) (w w' : DeleteQueryWriter.t) :
  chain calls w = Return w' ->
  ((exists q, DeleteQueryWriter.toQuery w = Return q)
   <-> (exists q', DeleteQueryWriter.toQuery w' = Return q'))
  /\ (forall q', DeleteQueryWriter.toQuery w' = Return q' ->
      prefix ("DELETE " ++ State.targets w) q' = true).
Proof.
  intros E.
  assert (Et : State.targets w' = State.targets w).
  { revert calls w w' E. apply chain_closure.
    - reflexivity.
    - intros a b c -> ->. reflexivity.
    - intros c a b Ec. now destruct (invoke_fixed _ _ Ec). }
  rewrite !toQuery_unfold, Et.
  destruct (truthy (State.targets w)).
  - split.
    + split; intros _; eexists; reflexivity.
    + intros q' Eq. injection Eq as <-.
      apply (prefix_append_assoc "DELETE ").
  - split.
    + split; intros [q Eq]; discriminate Eq.
    + intros q' Eq. discriminate Eq.
Qed.

End ChainProperties.

(** ** Calls on the same field, and fresh writers *)

Section Composition.
Context `{JsNumber} `{Zod} `{WriterTypes} `{!Collaborators}.

(** A writer as the factories leave it (return mode ['before'], no
    timeout, not parallel) renders its targets, its filter if any, and
    [RETURN BEFORE]. *)
Lemma toQuery_fresh (w : DeleteQueryWriter.t) :
  State.returnMode w = Some (State.mode before) ->
  State.timeout w = None ->
  State.parallel w = false ->
  DeleteQueryWriter.toQuery w =
  if truthy (State.targets w) then
    Return ("DELETE " ++ State.targets w ++ clause_WHERE w ++ " RETURN BEFORE")
  else Throw (Error "No targets specified").
Proof.
  intros Er En Ep. rewrite toQuery_unfold.
  unfold clause_RETURN, clause_TIMEOUT, clause_PARALLEL.
  rewrite Er, En, Ep, ReturnMode_literal_before. reflexivity.
Qed.

(** On a writer that is no relation delete every chain returns. *)
Lemma chain_total (calls : list Call) :
  forall w : DeleteQueryWriter.t,
    State.unrelate w = false ->
    exists w', chain calls w = Return w' /\ State.unrelate w' = false.
Proof.
  induction calls as [|c calls IH]; simpl; intros w Eu.
  - exists w. split; [reflexivity|exact Eu].
  - assert (Ec : exists w1, invoke c w = Return w1).
    { destruct c; simpl; try (eexists; reflexivity).
      unfold DeleteQueryWriter.where_. rewrite Eu. eexists. reflexivity. }
    destruct Ec as [w1 Ec]. rewrite Ec. simpl.
    apply IH. destruct (invoke_fixed _ _ Ec) as (_ & _ & Eu1).
    now rewrite Eu1.
Qed.

(** X6. The last call on a field wins: a second [with], [where],
    [return], [returnFields] or [timeout] makes the first one of no
    effect on the state, [returnFields] after [return] likewise, and
    [parallel] twice is [parallel] once. *)
Theorem last_call_wins (w : DeleteQueryWriter.t) :
  (forall a b,
      DeleteQueryWriter.with_ b (DeleteQueryWriter.with_ a w)
      = DeleteQueryWriter.with_ b w)
  /\ (forall c1 c2,
        (w1 <- DeleteQueryWriter.where_ c1 w ;; DeleteQueryWriter.where_ c2 w1)
        = DeleteQueryWriter.where_ c2 w)
  /\ (forall m1 m2,
        DeleteQueryWriter.return_ m2 (DeleteQueryWriter.return_ m1 w)
        = DeleteQueryWriter.return_ m2 w)
  /\ (forall f1 f2,
        DeleteQueryWriter.returnFields f2 (DeleteQueryWriter.returnFields f1 w)
        = DeleteQueryWriter.returnFields f2 w)
  /\ (forall m f,
        DeleteQueryWriter.returnFields f (DeleteQueryWriter.return_ m w)
        = DeleteQueryWriter.returnFields f w)
  /\ (forall n1 n2,
        DeleteQueryWriter.timeout n2 (DeleteQueryWriter.timeout n1 w)
        = DeleteQueryWriter.timeout n2 w)
  /\ DeleteQueryWriter.parallel (DeleteQueryWriter.parallel w)
     = DeleteQueryWriter.parallel w.
Proof.
  split; [reflexivity|]. split.
  { intros c1 c2. unfold DeleteQueryWriter.where_.
    destruct (State.unrelate w) eqn:Eu; simpl; [reflexivity|].
    reflexivity. }
  repeat split; reflexivity.
Qed.

(** X7. The return fields only matter in fields mode: two states that
    differ in nothing but [returnFields] render alike unless the return
    mode is ['fields'].  So [return(m)] after [returnFields(...)] renders
    as [return(m)] alone, though the fields stay in the state. *)
Theorem returnFields_ignored_outside_fields_mode :
  (forall a b : DeleteQueryWriter.t,
      same_except [f_returnFields] a b ->
      State.returnMode a <> Some State.fields ->
      DeleteQueryWriter.toQuery a = DeleteQueryWriter.toQuery b)
  /\ (forall (w : DeleteQueryWriter.t) m fs,
        DeleteQueryWriter.toQuery
          (DeleteQueryWriter.return_ m (DeleteQueryWriter.returnFields fs w))
        = DeleteQueryWriter.toQuery (DeleteQueryWriter.return_ m w)).
Proof.
  split.
  - intros a b (_ & _ & Et & Ew & Er & _ & En & Ep & _) Hm.
    apply toQuery_ext.
    + apply Et. simpl. intuition discriminate.
    + unfold clause_WHERE. rewrite Ew; [reflexivity|].
      simpl. intuition discriminate.
    + unfold clause_RETURN. rewrite <- Er by (simpl; intuition discriminate).
      destruct (State.returnMode a) as [[m|]|]; try reflexivity.
      now elim Hm.
    + unfold clause_TIMEOUT. rewrite En; [reflexivity|].
      simpl. intuition discriminate.
    + unfold clause_PARALLEL. rewrite Ep; [reflexivity|].
      simpl. intuition discriminate.
  - intros w m fs. apply toQuery_ext; reflexivity.
Qed.

(** X8. [returnFields()] without fields is accepted and renders the
    keyword alone: the RETURN clause is [' RETURN '] followed by
    nothing. *)
Theorem returnFields_empty (w : DeleteQueryWriter.t) :
  truthy (State.targets w) = true ->
  DeleteQueryWriter.toQuery (DeleteQueryWriter.returnFields [] w) =
  Return ("DELETE " ++ State.targets w ++ clause_WHERE w ++ " RETURN "
            ++ clause_TIMEOUT w ++ clause_PARALLEL w).
Proof.
  intros Et. rewrite toQuery_truthy by exact Et. reflexivity.
Qed.

End Composition.

(** ** The factories, rendered *)

Section FactoryProperties.
Context `{JsNumber} `{Zod} `{WriterTypes} `{!Collaborators}.

(** The state [del] returns, when it returns. *)
Lemma del_inv (targets : list SurrealValue) (w : DeleteQueryWriter.t) :
  del targets = Return w ->
  State.targets w = join ", " (map useSurrealValueUnsafe targets)
  /\ State.where_ w = None
  /\ State.returnMode w = Some (State.mode before)
  /\ State.timeout w = None
  /\ State.parallel w = false
  /\ State.unrelate w = false.
Proof.
  unfold del. destruct (Nat.eqb (length targets) 0); [intros E; discriminate E|].
  destruct (isListLike targets); [intros E; discriminate E|].
  intros E. injection E as <-. repeat split.
Qed.

(** The state [delRecord] returns, when it returns. *)
Lemma delRecord_inv
    (recordOrTable : string) (id : option string) (w : DeleteQueryWriter.t) :
  delRecord recordOrTable id = Return w ->
  State.quantity w = maybe
  /\ State.where_ w = None
  /\ State.returnMode w = Some (State.mode before)
  /\ State.timeout w = None
  /\ State.parallel w = false
  /\ State.unrelate w = false.
Proof.
  unfold delRecord.
  destruct id as [id|]; [|destruct (assertRecordLink recordOrTable)];
    simpl; intros E; try discriminate E; injection E as <-; repeat split.
Qed.

(** Along a chain a return mode that is set stays set. *)
Lemma chain_keeps_returnMode (calls : list Call) :
  forall w w' : DeleteQueryWriter.t,
    chain calls w = Return w' ->
    State.returnMode w <> None -> State.returnMode w' <> None.
Proof.
  revert calls.
  refine (@chain_closure _ _ _ _
            (fun a b =>
               State.returnMode a <> None -> State.returnMode b <> None)
            _ _ _).
  - trivial.
  - auto.
  - intros c w w' E. now destruct (invoke_keeps_set _ _ E) as (_ & _ & R & _).
Qed.

(** X9. A writer made by [del] from two or more targets always renders,
    as ['DELETE <t1>, <t2>, ... RETURN BEFORE']; one made from a single
    target renders as ['DELETE <t> RETURN BEFORE'] unless the target's
    text is empty, and then [toQuery] throws ['No targets specified']. *)
Theorem del_renders (targets : list SurrealValue) (w : DeleteQueryWriter.t) :
  del targets = Return w ->
  (2 <= length targets ->
   DeleteQueryWriter.toQuery w =
   Return ("DELETE " ++ join ", " (map useSurrealValueUnsafe targets)
             ++ " RETURN BEFORE"))
  /\ (forall v, targets = [v] ->
      (useSurrealValueUnsafe v = "" ->
       DeleteQueryWriter.toQuery w = Throw (Error "No targets specified"))
      /\ (useSurrealValueUnsafe v <> "" ->
          DeleteQueryWriter.toQuery w =
          Return ("DELETE " ++ useSurrealValueUnsafe v ++ " RETURN BEFORE"))).
Proof.
  intros E. destruct (del_inv _ E) as (Et & Ew & Er & En & Ep & _).
  rewrite (toQuery_fresh w Er En Ep). unfold clause_WHERE.
  rewrite Ew, Et. split.
  - intros Hlen. destruct targets as [|x [|y l]]; simpl in Hlen.
    + inversion Hlen.
    + apply le_S_n in Hlen. inversion Hlen.
    + cbn [map]. rewrite join_two_truthy. reflexivity.
  - intros v ->. cbn [map]. unfold join. cbn [String.concat]. split.
    + intros ->. reflexivity.
    + intros Hv. apply truthy_true_iff in Hv. rewrite Hv. reflexivity.
Qed.

(** X10. [delRecord(table, id)] always returns, with the target
    [thing(table, id)]; [delRecord(record)] throws what [assertRecordLink]
    throws and otherwise takes the asserted link as its target.  The
    writer is for at most one record (['maybe']), has no filter, and with
    a non-empty target renders ['DELETE <target> RETURN BEFORE']. *)
Theorem delRecord_behaviour (recordOrTable : string) :
  (forall id, exists w,
      delRecord recordOrTable (Some id) = Return w
      /\ State.targets w = thing recordOrTable id)
  /\ (forall e,
        assertRecordLink recordOrTable = Throw e ->
        delRecord recordOrTable None = Throw e)
  /\ (forall link,
        assertRecordLink recordOrTable = Return link ->
        exists w,
          delRecord recordOrTable None = Return w
          /\ State.targets w = link)
  /\ (forall id w,
        delRecord recordOrTable id = Return w ->
        State.quantity w = maybe
        /\ State.where_ w = None
        /\ State.unrelate w = false
        /\ (State.targets w <> "" ->
            DeleteQueryWriter.toQuery w =
            Return ("DELETE " ++ State.targets w ++ " RETURN BEFORE"))).
Proof.
  split; [intros id; eexists; split; reflexivity|].
  split; [intros e E; unfold delRecord; rewrite E; reflexivity|].
  split;
    [intros link E; unfold delRecord; rewrite E; eexists; split; reflexivity|].
  intros id w E.
  destruct (delRecord_inv _ _ E) as (Eq & Ew & Er & En & Ep & Eu).
  repeat split; trivial.
  intros Ht. apply truthy_true_iff in Ht.
  rewrite (toQuery_fresh w Er En Ep), Ht. unfold clause_WHERE.
  rewrite Ew. reflexivity.
Qed.

(** X11. A fresh relation delete renders
    ['DELETE <edge> WHERE <compiled ends> RETURN BEFORE']; if the compiled
    filter is the empty string the WHERE clause is left out, and if the
    edge is the empty string [toQuery] throws. *)
Theorem delRelation_renders (relation : RecordRelation) :
  let filter :=
    parseWhereClause
      [("in", eq (getRelationFrom relation));
       ("out", eq (getRelationTo relation))] in
  (edge relation = "" ->
   DeleteQueryWriter.toQuery (delRelation relation)
   = Throw (Error "No targets specified"))
  /\ (edge relation <> "" -> filter <> "" ->
      DeleteQueryWriter.toQuery (delRelation relation)
      = Return ("DELETE " ++ edge relation ++ " WHERE " ++ filter
                  ++ " RETURN BEFORE"))
  /\ (edge relation <> "" -> filter = "" ->
      DeleteQueryWriter.toQuery (delRelation relation)
      = Return ("DELETE " ++ edge relation ++ " RETURN BEFORE")).
Proof.
  intros filter.
  rewrite (toQuery_fresh (delRelation relation) eq_refl eq_refl eq_refl).
  unfold clause_WHERE. cbn [delRelation State.targets State.where_].
  fold filter. split; [|split].
  - intros ->. reflexivity.
  - intros He Hf. apply truthy_true_iff in He, Hf. rewrite He, Hf.
    rewrite append_assoc. reflexivity.
  - intros He Hf. apply truthy_true_iff in He. rewrite He, Hf. reflexivity.
Qed.

(** X12. No writer that came out of a factory can lose its RETURN
    clause: the factories set the return mode and no call clears it, so
    after any chain of calls [toQuery] renders, between the WHERE and the
    TIMEOUT clause, a RETURN clause that starts with [' RETURN ']: the
    joined fields in fields mode, the upper-cased mode otherwise. *)
Theorem factory_writers_render_RETURN
    (w0 : DeleteQueryWriter.t) (calls : list Call) (w : DeleteQueryWriter.t) :
  (exists targets, del targets = Return w0)
  \/ (exists recordOrTable id, delRecord recordOrTable id = Return w0)
  \/ (exists relation, w0 = delRelation relation) ->
  chain calls w0 = Return w ->
  exists text,
    clause_RETURN w = " RETURN " ++ text
    /\ (State.returnMode w = Some State.fields
          /\ text = join ", " (State.returnFields w)
        \/ exists m,
             State.returnMode w = Some (State.mode m)
             /\ text = toUpperCase (ReturnMode_literal m))
    /\ DeleteQueryWriter.toQuery w =
       if truthy (State.targets w) then
         Return ("DELETE " ++ State.targets w ++ clause_WHERE w
                   ++ " RETURN " ++ text
                   ++ clause_TIMEOUT w ++ clause_PARALLEL w)
       else Throw (Error "No targets specified").
Proof.
  intros Hf E.
  assert (Er : State.returnMode w0 <> None).
  { destruct Hf as [[ts Ed]|[[r [id Ed]]|[rel ->]]].
    - destruct (del_inv _ Ed) as (_ & _ & Er & _). rewrite Er. discriminate.
    - destruct (delRecord_inv _ _ Ed) as (_ & _ & Er & _).
      rewrite Er. discriminate.
    - discriminate. }
  apply (chain_keeps_returnMode _ _ E) in Er.
  rewrite toQuery_unfold. unfold clause_RETURN.
  destruct (State.returnMode w) as [[m|]|].
  - exists (toUpperCase (ReturnMode_literal m)).
    split; [reflexivity|]. split; [right; exists m; split; reflexivity|].
    destruct (truthy (State.targets w)); reflexivity.
  - exists (join ", " (State.returnFields w)).
    split; [reflexivity|]. split; [left; split; reflexivity|].
    destruct (truthy (State.targets w)); reflexivity.
  - now elim Er.
Qed.

(** X13. On a writer made by [del] or [delRecord] no chain of
    configuration calls throws, and [where] is still accepted at the end
    of it. *)
Theorem bulk_and_record_writers_configurable
    (w0 : DeleteQueryWriter.t) (calls : list Call) :
  (exists targets, del targets = Return w0)
  \/ (exists recordOrTable id, delRecord recordOrTable id = Return w0) ->
  exists w,
    chain calls w0 = Return w
    /\ forall clause, exists w',
         DeleteQueryWriter.where_ clause w = Return w'.
Proof.
  intros Hf.
  assert (Eu : State.unrelate w0 = false).
  { destruct Hf as [[ts Ed]|[r [id Ed]]].
    - now destruct (del_inv _ Ed) as (_ & _ & _ & _ & _ & Eu).
    - now destruct (delRecord_inv _ _ Ed) as (_ & _ & _ & _ & _ & Eu). }
  destruct (chain_total calls w0 Eu) as (w & E & Eu').
  exists w. split; [exact E|].
  intros clause. unfold DeleteQueryWriter.where_. rewrite Eu'.
  eexists. reflexivity.
Qed.

End FactoryProperties.

(** ** The further properties on the sample runtime *)

(** X1 after [.return('diff').timeout(9)]. *)
Lemma chain_fixed_fields_witness :
  chain Sample.diff_in_9s Sample.person_names
  = Return (DeleteQueryWriter.timeout (Sample.integer 9)
              (DeleteQueryWriter.return_ Sample.mode_diff
                 Sample.person_names))
  /\ State.targets
       (DeleteQueryWriter.timeout (Sample.integer 9)
          (DeleteQueryWriter.return_ Sample.mode_diff Sample.person_names))
     = "person".
Proof.
  split; [reflexivity|].
  exact (proj1 (chain_fixed_fields
                  Sample.diff_in_9s Sample.person_names eq_refl)).
Defined.

(** X2 after [.return('diff').timeout(9)] on a parallel writer with a
    filter. *)
Lemma chain_never_unsets_witness :
  State.parallel
    (DeleteQueryWriter.timeout (Sample.integer 9)
       (DeleteQueryWriter.return_ Sample.mode_diff Sample.person_names))
  = true
  /\ State.where_
       (DeleteQueryWriter.timeout (Sample.integer 9)
          (DeleteQueryWriter.return_ Sample.mode_diff Sample.person_names))
     <> None.
Proof.
  destruct (chain_never_unsets
              Sample.diff_in_9s Sample.person_names eq_refl) as (_ & W & _ & _ & P).
  split; [apply P; reflexivity|apply W; discriminate].
Defined.

(** X3 on a relation delete, with [where] as the second call. *)
Lemma chain_throws_iff_witness :
  exists e,
    chain Sample.parallel_adults Sample.knows = Throw e.
Proof.
  apply (proj1 (chain_throws_iff Sample.parallel_adults Sample.knows)).
  split; reflexivity.
Defined.

(** X4 after [.timeout(5).parallel()]. *)
Lemma relation_filter_locked_witness :
  State.where_
    (DeleteQueryWriter.parallel
       (DeleteQueryWriter.timeout (Sample.integer 5) Sample.knows))
  = Some "in = person:1 AND out = person:2".
Proof.
  exact (proj1 (relation_filter_locked Sample.knows_relation
                  Sample.parallel_in_5s eq_refl)).
Defined.

(** X5 after [.return('diff').timeout(9)]. *)
Lemma chain_renderable_witness :
  exists q,
    DeleteQueryWriter.toQuery
      (DeleteQueryWriter.timeout (Sample.integer 9)
         (DeleteQueryWriter.return_ Sample.mode_diff Sample.person_names))
    = Return q.
Proof.
  apply (proj1 (proj1 (chain_renderable
                         Sample.diff_in_9s Sample.person_names eq_refl))).
  eexists. reflexivity.
Defined.

(** X7 on two states in mode ['diff'] with different return fields. *)
Lemma returnFields_ignored_witness :
  DeleteQueryWriter.toQuery
    (DeleteQueryWriter.return_ Sample.mode_diff Sample.person_names)
  = DeleteQueryWriter.toQuery
      (DeleteQueryWriter.return_ Sample.mode_diff
         (DeleteQueryWriter.returnFields ["id"] Sample.person_names)).
Proof.
  apply (proj1 returnFields_ignored_outside_fields_mode).
  - frame.
  - simpl. intros E. discriminate E.
Defined.

(** X8 on the sample relation delete. *)
Lemma returnFields_empty_witness :
  DeleteQueryWriter.toQuery (DeleteQueryWriter.returnFields [] Sample.knows)
  = Return "DELETE knows:1 WHERE in = person:1 AND out = person:2 RETURN ".
Proof.
  exact (returnFields_empty Sample.knows eq_refl).
Defined.

(** X9 on two targets, and on the single target [''] . *)
Lemma del_renders_witness :
  (exists w,
      del [Sample.text "person"; Sample.text "dog"] = Return w
      /\ DeleteQueryWriter.toQuery w
         = Return "DELETE person, dog RETURN BEFORE")
  /\ (exists w,
        del [Sample.text ""] = Return w
        /\ DeleteQueryWriter.toQuery w
           = Throw (Error "No targets specified")).
Proof.
  split.
  - eexists. split; [reflexivity|].
    refine (proj1 (del_renders
                     [Sample.text "person"; Sample.text "dog"] eq_refl) _).
    simpl. apply le_n.
  - eexists. split; [reflexivity|].
    refine (proj1 (proj2 (del_renders [Sample.text ""] eq_refl)
                     (Sample.text "") eq_refl) eq_refl).
Defined.

(** X10 on a bare table name, which the sample [assertRecordLink]
    refuses, and on a record link. *)
Lemma delRecord_behaviour_witness :
  delRecord "person" None
  = Throw (CirqlWriterError "Value is not a record link")
  /\ (exists w,
        delRecord "person:1" None = Return w
        /\ State.targets w = "person:1")
  /\ (exists w,
        delRecord "person" (Some "1") = Return w
        /\ DeleteQueryWriter.toQuery w
           = Return "DELETE person:1 RETURN BEFORE").
Proof.
  split; [|split].
  - exact (proj1 (proj2 (delRecord_behaviour "person")) _ eq_refl).
  - exact (proj1 (proj2 (proj2 (delRecord_behaviour "person:1")))
             "person:1" eq_refl).
  - eexists. split; [reflexivity|].
    refine (proj2 (proj2 (proj2
              (proj2 (proj2 (proj2 (delRecord_behaviour "person")))
                 (Some "1") _ eq_refl))) _).
    simpl. intros E. discriminate E.
Defined.

(** X11 on the sample relation. *)
Lemma delRelation_renders_witness :
  DeleteQueryWriter.toQuery (delRelation Sample.knows_relation)
  = Return ("DELETE knows:1 WHERE in = person:1 AND out = person:2"
              ++ " RETURN BEFORE").
Proof.
  refine (proj1 (proj2 (delRelation_renders Sample.knows_relation)) _ _);
    simpl; intros E; discriminate E.
Defined.

(** X12 after [.return('none')] on the sample relation delete. *)
Lemma factory_writers_render_RETURN_witness :
  DeleteQueryWriter.toQuery
    (DeleteQueryWriter.return_ Sample.mode_none Sample.knows)
  = Return ("DELETE knows:1 WHERE in = person:1 AND out = person:2"
              ++ " RETURN NONE").
Proof.
  assert (Hf : (exists targets, del targets = Return Sample.knows)
               \/ (exists recordOrTable id,
                      delRecord recordOrTable id = Return Sample.knows)
               \/ (exists relation, Sample.knows = delRelation relation))
    by (right; right; exists Sample.knows_relation; reflexivity).
  destruct (factory_writers_render_RETURN
              (w0 := Sample.knows) Sample.returning_none Hf eq_refl)
    as (text & Ec & _ & Eq).
  vm_compute in Ec. injection Ec as <-. exact Eq.
Defined.

(** X13 on [del('person')] followed by [.parallel().where('age > 18')]. *)
Lemma bulk_and_record_writers_configurable_witness :
  exists w0,
    del [Sample.text "person"] = Return w0
    /\ exists w,
         chain Sample.parallel_adults w0 = Return w
         /\ forall clause, exists w',
              DeleteQueryWriter.where_ clause w = Return w'.
Proof.
  eexists. split; [reflexivity|].
  apply bulk_and_record_writers_configurable.
  left. exists [Sample.text "person"]. reflexivity.
Defined.
